(** * RESTClient: a shallow embedding of [rest_client.py]

    The module defines one class, [RESTClient], whose constructor stores
    four attributes and whose five methods build a URL with [+], call the
    matching function of the [requests] module and return
    [response.json()].  The embedding keeps Python's dynamic view of the
    program: values are untyped, the instance is its attribute dictionary,
    a call binds its arguments against the [def] line, and every step may
    raise. *)

From stdpp Require Import base option list strings gmap.
From Stdlib Require Import ZArith.

Open Scope Z_scope.
Open Scope string_scope.

#[local] Set Warnings "-register-all".

(** ** Python values *)

(** The values that flow through the client: [None], booleans, integers,
    strings, tuples (the [auth] pair), lists and dictionaries with string
    keys (query parameters, bodies, decoded JSON).  Dictionaries keep
    insertion order, as Python's do. *)
Inductive PyVal : Type :=
  | PyNone
  | PyBool (b : bool)
  | PyInt (z : Z)
  | PyStr (s : string)
  | PyTuple (items : list PyVal)
  | PyList (items : list PyVal)
  | PyDict (items : list (string * PyVal)).

(** Objects that can be changed in place; a default argument of such a
    type is shared by all calls that omit it. *)
Definition mutable (v : PyVal) : bool :=
  match v with
  | PyList _ | PyDict _ => true
  | _ => false
  end.

(** ** Exceptions *)

Inductive TypeErrorKind : Type :=
  | TooManyPositional (fn : string) (given : nat)
  | UnexpectedKeyword (fn : string) (kw : string)
  | MultipleValues (fn : string) (param : string)
  | MissingArgument (fn : string) (param : string)
  | UnsupportedOperand (op : string).

(** [RequestException] stands for whatever the transport raises
    (connection refused, timeout, invalid URL, ...), [JSONDecodeError] for
    what [response.json()] raises. *)
Inductive Exn : Type :=
  | TypeError (why : TypeErrorKind)
  | AttributeError (attr : string)
  | KeyError (key : string)
  | RequestException (what : string)
  | JSONDecodeError (msg : string).

Inductive Outcome (A : Type) : Type :=
  | Ret (a : A)
  | Raise (e : Exn).
Arguments Ret {A} a.
Arguments Raise {A} e.

(** ** Operators *)

Definition as_int (v : PyVal) : option Z :=
  match v with
  | PyInt z => Some z
  | PyBool b => Some (if b then 1 else 0)
  | _ => None
  end.

(** [a + b] on the built-in values above: concatenation on two strings,
    two tuples or two lists, the sum on numbers ([bool] is a subclass of
    [int]), [TypeError] otherwise.  Objects of classes that bring their
    own [__radd__] are not among the values of [PyVal]. *)
Definition py_add (a b : PyVal) : Outcome PyVal :=
  match a, b with
  | PyStr x, PyStr y => Ret (PyStr (x ++ y))
  | PyTuple x, PyTuple y => Ret (PyTuple (x ++ y))
  | PyList x, PyList y => Ret (PyList (x ++ y))
  | _, _ =>
      match as_int a, as_int b with
      | Some x, Some y => Ret (PyInt (x + y))
      | _, _ => Raise (TypeError (UnsupportedOperand "+"))
      end
  end.

Fixpoint assoc (k : string) (items : list (string * PyVal)) : option PyVal :=
  match items with
  | [] => None
  | (k', v) :: rest => if String.eqb k' k then Some v else assoc k rest
  end.

(** [d[k]] on a decoded response. *)
Definition py_getitem (d : PyVal) (k : string) : Outcome PyVal :=
  match d with
  | PyDict items =>
      match assoc k items with
      | Some v => Ret v
      | None => Raise (KeyError k)
      end
  | _ => Raise (TypeError (UnsupportedOperand "[]"))
  end.

(** ** Calls: binding arguments to a [def] line *)

(** A parameter is its name and, when it is optional, its default. *)
Record Signature : Type := {
  fn_name : string;
  fn_params : list (string * option PyVal)
}.

(** A slot holds the value bound to a parameter so far. *)
Definition Slots : Type := list (string * option PyVal).

(** Positional arguments fill the parameters from the left; surplus ones
    are counted after the keywords have been looked at. *)
Fixpoint fill_positional (ps : list (string * option PyVal))
    (args : list PyVal) : Slots :=
  match ps, args with
  | [], _ => []
  | (n, _) :: ps', [] => (n, None) :: fill_positional ps' []
  | (n, _) :: ps', a :: args' => (n, Some a) :: fill_positional ps' args'
  end.

Fixpoint set_keyword (fn : string) (k : string) (v : PyVal)
    (slots : Slots) : Exn + Slots :=
  match slots with
  | [] => inl (TypeError (UnexpectedKeyword fn k))
  | (n, s) :: rest =>
      if String.eqb n k then
        match s with
        | Some _ => inl (TypeError (MultipleValues fn k))
        | None => inr ((n, Some v) :: rest)
        end
      else
        match set_keyword fn k v rest with
        | inl e => inl e
        | inr rest' => inr ((n, s) :: rest')
        end
  end.

Fixpoint set_keywords (fn : string) (kwargs : list (string * PyVal))
    (slots : Slots) : Exn + Slots :=
  match kwargs with
  | [] => inr slots
  | (k, v) :: rest =>
      match set_keyword fn k v slots with
      | inl e => inl e
      | inr slots' => set_keywords fn rest slots'
      end
  end.

Fixpoint fill_defaults (fn : string) (ps : list (string * option PyVal))
    (slots : Slots) : Exn + list PyVal :=
  match ps, slots with
  | (n, d) :: ps', (_, s) :: slots' =>
      match (match s with Some v => Some v | None => d end) with
      | None => inl (TypeError (MissingArgument fn n))
      | Some v =>
          match fill_defaults fn ps' slots' with
          | inl e => inl e
          | inr vs => inr (v :: vs)
          end
      end
  | _, _ => inr []
  end.

(** The values of the parameters, in the order of the [def] line. *)
Definition bind_args (sig : Signature) (args : list PyVal)
    (kwargs : list (string * PyVal)) : Exn + list PyVal :=
  match set_keywords (fn_name sig) kwargs
          (fill_positional (fn_params sig) args) with
  | inl e => inl e
  | inr slots =>
      if (length (fn_params sig) <? length args)%nat
      then inl (TypeError (TooManyPositional (fn_name sig) (length args)))
      else fill_defaults (fn_name sig) (fn_params sig) slots
  end.

Definition arg (i : nat) (vals : list PyVal) : PyVal := nth i vals PyNone.

(** ** The transport *)

(** The five functions of the [requests] module that the client calls. *)
Inductive Verb : Type := GET | POST | PUT | DELETE | PATCH.

(** What reaches the transport: the function called, its positional
    argument [url] and its keyword arguments, in the order written. *)
Record Request : Type := {
  verb : Verb;
  url : PyVal;
  keywords : list (string * PyVal)
}.

Module Response.
Record t : Type := { status_code : Z; text : string }.
End Response.

(** The external collaborators: the network behind [requests], which
    answers a request with a response or raises, and the JSON decoder
    behind [response.json()]. *)
Class Transport : Type := {
  NetState : Type;
  send : Request -> NetState -> Outcome Response.t * NetState;
  loads : string -> Outcome PyVal
}.

(** ** Program state and the monad of method bodies *)

Section Client.
Context `{Transport}.

(** [self] is the instance's attribute dictionary; [issued] records the
    calls made to [requests], oldest first. *)
Record State : Type := {
  self : gmap string PyVal;
  net : NetState;
  issued : list Request
}.

Definition M (A : Type) : Type := State -> Outcome A * State.

#[export] Instance M_ret : MRet M := fun A a st => (Ret a, st).

#[export] Instance M_bind : MBind M := fun A B f m st =>
  match m st with
  | (Ret a, st') => f a st'
  | (Raise e, st') => (Raise e, st')
  end.

Definition raise {A : Type} (e : Exn) : M A := fun st => (Raise e, st).

Definition lift {A : Type} (o : Outcome A) : M A := fun st => (o, st).

Definition result {A : Type} (m : M A) (st : State) : Outcome A := fst (m st).
Definition exec {A : Type} (m : M A) (st : State) : State := snd (m st).

(** [self.name] *)
Definition getattr (name : string) : M PyVal := fun st =>
  match self st !! name with
  | Some v => (Ret v, st)
  | None => (Raise (AttributeError name), st)
  end.

(** [self.name = v] *)
Definition setattr (name : string) (v : PyVal) : M unit := fun st =>
  (Ret tt, {| self := <[name := v]> (self st); net := net st;
              issued := issued st |}).

(** [requests.get(url, ...)] and its four siblings. *)
Definition requests (v : Verb) (u : PyVal) (kw : list (string * PyVal))
    : M Response.t := fun st =>
  let req := {| verb := v; url := u; keywords := kw |} in
  let '(out, n) := send req (net st) in
  (out, {| self := self st; net := n; issued := issued st ++ [req] |}).

(** [response.json()] *)
Definition response_json (response : Response.t) : M PyVal :=
  lift (loads (Response.text response)).

(** The instance carries the four attributes with these values. *)
Definition configured (st : State) (base_url auth timeout verify : PyVal)
    : Prop :=
  self st !! "base_url" = Some base_url ∧
  self st !! "auth" = Some auth ∧
  self st !! "timeout" = Some timeout ∧
  self st !! "verify" = Some verify.

End Client.

(** ** The class *)

Module RESTClient.
Section Methods.
Context `{Transport}.

Definition __init__ (base_url auth timeout verify : PyVal) : M unit :=
  setattr "base_url" base_url;;
  setattr "auth" auth;;
  setattr "timeout" timeout;;
  setattr "verify" verify.

Definition get (endpoint params : PyVal) : M PyVal :=
  base_url ← getattr "base_url";
  url ← lift (py_add base_url endpoint);
  auth ← getattr "auth";
  timeout ← getattr "timeout";
  verify ← getattr "verify";
  response ← requests GET url
    [("auth", auth); ("timeout", timeout); ("verify", verify);
     ("params", params)];
  response_json response.

Definition post (endpoint data json : PyVal) : M PyVal :=
  base_url ← getattr "base_url";
  url ← lift (py_add base_url endpoint);
  auth ← getattr "auth";
  timeout ← getattr "timeout";
  verify ← getattr "verify";
  response ← requests POST url
    [("auth", auth); ("timeout", timeout); ("verify", verify);
     ("data", data); ("json", json)];
  response_json response.

Definition put (endpoint data : PyVal) : M PyVal :=
  base_url ← getattr "base_url";
  url ← lift (py_add base_url endpoint);
  auth ← getattr "auth";
  timeout ← getattr "timeout";
  verify ← getattr "verify";
  response ← requests PUT url
    [("auth", auth); ("timeout", timeout); ("verify", verify);
     ("data", data)];
  response_json response.

Definition delete (endpoint : PyVal) : M PyVal :=
  base_url ← getattr "base_url";
  url ← lift (py_add base_url endpoint);
  auth ← getattr "auth";
  timeout ← getattr "timeout";
  verify ← getattr "verify";
  response ← requests DELETE url
    [("auth", auth); ("timeout", timeout); ("verify", verify)];
  response_json response.

Definition patch (endpoint data : PyVal) : M PyVal :=
  base_url ← getattr "base_url";
  url ← lift (py_add base_url endpoint);
  auth ← getattr "auth";
  timeout ← getattr "timeout";
  verify ← getattr "verify";
  response ← requests PATCH url
    [("auth", auth); ("timeout", timeout); ("verify", verify);
     ("data", data)];
  response_json response.

End Methods.

(** The [def] lines, without [self]. *)
Definition init_signature : Signature :=
  {| fn_name := "__init__";
     fn_params := [("base_url", None); ("auth", Some PyNone);
                   ("timeout", Some PyNone); ("verify", Some (PyBool true))] |}.

Definition signature (m : Verb) : Signature :=
  match m with
  | GET =>
      {| fn_name := "get";
         fn_params := [("endpoint", None); ("params", Some PyNone)] |}
  | POST =>
      {| fn_name := "post";
         fn_params := [("endpoint", None); ("data", Some PyNone);
                       ("json", Some PyNone)] |}
  | PUT =>
      {| fn_name := "put";
         fn_params := [("endpoint", None); ("data", Some PyNone)] |}
  | DELETE =>
      {| fn_name := "delete"; fn_params := [("endpoint", None)] |}
  | PATCH =>
      {| fn_name := "patch";
         fn_params := [("endpoint", None); ("data", Some PyNone)] |}
  end.

Section Calls.
Context `{Transport}.

(** The body of a method on the bound parameter values. *)
Definition body (m : Verb) (vals : list PyVal) : M PyVal :=
  match m with
  | GET => get (arg 0 vals) (arg 1 vals)
  | POST => post (arg 0 vals) (arg 1 vals) (arg 2 vals)
  | PUT => put (arg 0 vals) (arg 1 vals)
  | DELETE => delete (arg 0 vals)
  | PATCH => patch (arg 0 vals) (arg 1 vals)
  end.

(** A call [client.m(...)] with positional and keyword arguments. *)
Definition call (m : Verb) (args : list PyVal)
    (kwargs : list (string * PyVal)) : M PyVal :=
  match bind_args (signature m) args kwargs with
  | inl e => raise e
  | inr vals => body m vals
  end.

(** A call [RESTClient(...)]: a new instance, with no attribute yet, is
    handed to [__init__]. *)
Definition new (args : list PyVal) (kwargs : list (string * PyVal))
    : M unit :=
  match bind_args init_signature args kwargs with
  | inl e => raise e
  | inr vals =>
      (fun st => (Ret tt, {| self := ∅; net := net st;
                             issued := issued st |}));;
      __init__ (arg 0 vals) (arg 1 vals) (arg 2 vals) (arg 3 vals)
  end.

(** A caller that makes the calls one after the other, going on after an
    exception. *)
Definition after_calls
    (calls : list (Verb * list PyVal * list (string * PyVal)))
    (st : State) : State :=
  foldl (fun st c => exec (call c.1.1 c.1.2 c.2) st) st calls.

End Calls.
End RESTClient.

Section Performs.
Context `{Transport}.

(** A method body that issues [req] and nothing else: it raises what the
    transport raises, otherwise it returns or raises what decoding the
    response text returns or raises. *)
Definition performs (m : Verb) (vals : list PyVal) (st : State)
    (req : Request) : Prop :=
  RESTClient.body m vals st =
    (match (send req (net st)).1 with
     | Ret response => loads (Response.text response)
     | Raise e => Raise e
     end,
     {| self := self st; net := (send req (net st)).2;
        issued := issued st ++ [req] |}).

End Performs.

(** The optional parameters of a [def] line, each with its default. *)
Definition optional_parameters (sig : Signature) : list (string * PyVal) :=
  omap (fun p => match p.2 with
                 | Some d => Some (p.1, d)
                 | None => None
                 end) (fn_params sig).

(** The callables of the class: the constructor and the five methods. *)
Definition public_interface : list Signature :=
  RESTClient.init_signature
    :: map RESTClient.signature [GET; POST; PUT; DELETE; PATCH].

(** ** A mocked transport, as in [tests/test_rest_client.py] *)

(** Every request is answered by [answer]; [decoded] plays the [json()]
    method of the mocked response. *)
Definition mock_transport (answer : Outcome Response.t)
    (decoded : string -> Outcome PyVal) : Transport :=
  {| NetState := unit;
     send := fun _ n => (answer, n);
     loads := decoded |}.

(** A decoder that knows the empty object and the empty array and rejects
    every other body, the empty one included. *)
Definition strict_loads (s : string) : Outcome PyVal :=
  if String.eqb s "{}" then Ret (PyDict [])
  else if String.eqb s "[]" then Ret (PyList [])
  else Raise (JSONDecodeError "Expecting value").

Definition start (T : Transport) (n : @NetState T) : @State T :=
  {| self := ∅; net := n; issued := [] |}.

(** [cls.client = RESTClient("https://jsonplaceholder.typicode.com")] *)
Definition setup_class (T : Transport) (n : @NetState T) : @State T :=
  exec (RESTClient.new [PyStr "https://jsonplaceholder.typicode.com"] [])
       (start T n).

Definition test_title : PyVal := PyDict [("title", PyStr "Test")].

(** The mock of the tests: [json()] of the response gives
    [mock_response]. *)
Definition mocked (mock_response : PyVal) : Transport :=
  mock_transport
    (Ret {| Response.status_code := 200; Response.text := "{}" |})
    (fun _ => Ret mock_response).

(** What a test reads from the value a call returns: [response[k]]. *)
Definition subscript `{Transport} (m : M PyVal) (k : string) (st : State)
    : Outcome PyVal :=
  match result m st with
  | Ret response => py_getitem response k
  | Raise e => Raise e
  end.

(** A server that answers 404 with an empty JSON object, and one that
    answers 200 with an empty body. *)
Definition not_found : Transport :=
  mock_transport
    (Ret {| Response.status_code := 404; Response.text := "{}" |})
    strict_loads.

Definition empty_body : Transport :=
  mock_transport
    (Ret {| Response.status_code := 200; Response.text := EmptyString |})
    strict_loads.

(** A transport on which every request fails before a response arrives. *)
Definition refusing : Transport :=
  mock_transport (Raise (RequestException "Connection refused"))
    strict_loads.

(** * Properties *)

(** Runs a method body in a state whose four attributes are known. *)
Ltac run_body Hcfg :=
  destruct Hcfg as (?Hb & ?Ha & ?Ht & ?Hv);
  unfold RESTClient.body, RESTClient.get, RESTClient.post, RESTClient.put,
    RESTClient.delete, RESTClient.patch, result, exec;
  unfold mbind, M_bind, getattr, lift, requests, response_json;
  repeat match goal with
         | E : self _ !! _ = Some _ |- _ => rewrite !E
         | E : arg _ _ = _ |- _ => rewrite !E
         end;
  cbn [py_add fst snd].

(** Splits a statement about every parameter of a [def] line. *)
Ltac each_param :=
  repeat match goal with |- Forall _ _ => constructor end; cbn.

Section Methods_spec.
Context `{Transport}.

Lemma body_performs m vals st b e a t v :
  configured st (PyStr b) a t v ->
  arg 0 vals = PyStr e ->
  ∃ extra,
    performs m vals st
      {| verb := m; url := PyStr (b ++ e);
         keywords :=
           ([("auth", a); ("timeout", t); ("verify", v)] ++ extra)%list |}.
Proof.
  intros Hcfg He. unfold performs.
  destruct m;
    [ exists [("params", arg 1 vals)]
    | exists [("data", arg 1 vals); ("json", arg 2 vals)]
    | exists [("data", arg 1 vals)]
    | exists []
    | exists [("data", arg 1 vals)] ];
    run_body Hcfg; cbn [app];
    destruct (send _ _) as [[r | x] n]; reflexivity.
Qed.

Lemma body_self m vals st : self (RESTClient.body m vals st).2 = self st.
Proof.
  destruct m; cbn [RESTClient.body];
    unfold RESTClient.get, RESTClient.post, RESTClient.put,
      RESTClient.delete, RESTClient.patch;
    unfold mbind, M_bind, getattr, lift, requests, response_json;
    repeat (match goal with
            | |- context [self st !! ?k] => destruct (self st !! k)
            | |- context [py_add ?x ?y] => destruct (py_add x y)
            | |- context [send ?r ?n] => destruct (send r n) as [[? | ?] ?]
            | |- context [loads ?s] => destruct (loads s)
            end; cbn [fst snd self]);
    reflexivity.
Qed.

Lemma call_self m args kwargs st :
  self (exec (RESTClient.call m args kwargs) st) = self st.
Proof.
  unfold exec, RESTClient.call.
  destruct (bind_args _ _ _); [reflexivity | apply body_self].
Qed.

Lemma after_calls_self calls st :
  self (RESTClient.after_calls calls st) = self st.
Proof.
  unfold RESTClient.after_calls. revert st.
  induction calls as [| c calls IH]; intros st; [reflexivity |].
  cbn [foldl]. rewrite IH. apply call_self.
Qed.

Lemma configured_after_calls calls st b a t v :
  configured st b a t v ->
  configured (RESTClient.after_calls calls st) b a t v.
Proof. unfold configured. by rewrite after_calls_self. Qed.

Lemma new_runs args kwargs vals st :
  bind_args RESTClient.init_signature args kwargs = inr vals ->
  RESTClient.new args kwargs st =
    (Ret tt,
     {| self := <["verify" := arg 3 vals]>
                  (<["timeout" := arg 2 vals]>
                     (<["auth" := arg 1 vals]>
                        (<["base_url" := arg 0 vals]> ∅)));
        net := net st; issued := issued st |}).
Proof. intros Hb. unfold RESTClient.new. rewrite Hb. reflexivity. Qed.

Lemma new_configured args kwargs vals st :
  bind_args RESTClient.init_signature args kwargs = inr vals ->
  configured (exec (RESTClient.new args kwargs) st)
    (arg 0 vals) (arg 1 vals) (arg 2 vals) (arg 3 vals).
Proof.
  intros Hb. unfold exec. rewrite (new_runs _ _ _ _ Hb).
  unfold configured. cbn [snd self]. by simplify_map_eq.
Qed.

Lemma call_performs m args kwargs vals st b e a t v :
  configured st (PyStr b) a t v ->
  bind_args (RESTClient.signature m) args kwargs = inr vals ->
  arg 0 vals = PyStr e ->
  ∃ extra,
    let req := {| verb := m; url := PyStr (b ++ e);
                  keywords :=
                    ([("auth", a); ("timeout", t); ("verify", v)]
                       ++ extra)%list |} in
    RESTClient.call m args kwargs st =
      (match (send req (net st)).1 with
       | Ret response => loads (Response.text response)
       | Raise x => Raise x
       end,
       {| self := self st; net := (send req (net st)).2;
          issued := (issued st ++ [req])%list |}).
Proof.
  intros Hcfg Hb He.
  destruct (body_performs m vals st b e a t v Hcfg He) as [extra Hp].
  exists extra. unfold RESTClient.call. rewrite Hb. exact Hp.
Qed.

End Methods_spec.

(** ** The issued request *)

Section Request_claims.
Context `{Transport}.

(** C1. For every method, base URL and endpoint string, the call issues
    exactly one request, through the function of [requests] named like the
    method, and its URL is [base_url] followed by [endpoint], character for
    character. *)
Theorem url_is_concatenation m args kwargs vals st b e a t v :
  configured st (PyStr b) a t v ->
  bind_args (RESTClient.signature m) args kwargs = inr vals ->
  arg 0 vals = PyStr e ->
  ∃ req,
    issued (exec (RESTClient.call m args kwargs) st)
      = (issued st ++ [req])%list ∧
    verb req = m ∧
    url req = PyStr (b ++ e).
Proof.
  intros Hcfg Hb He.
  destruct (call_performs m args kwargs vals st b e a t v Hcfg Hb He)
    as [extra Hc].
  eexists. unfold exec. rewrite Hc. cbn. eauto.
Qed.

(** C2. Whatever [auth], [timeout] and [verify] the constructor was given,
    every later call of every method, after any number of earlier calls,
    hands exactly these values to the transport under the keywords
    [auth], [timeout] and [verify]. *)
Theorem config_forwarded cargs ckwargs b a t v calls st0
    m args kwargs vals e :
  bind_args RESTClient.init_signature cargs ckwargs
    = inr [PyStr b; a; t; v] ->
  bind_args (RESTClient.signature m) args kwargs = inr vals ->
  arg 0 vals = PyStr e ->
  let st := RESTClient.after_calls calls
              (exec (RESTClient.new cargs ckwargs) st0) in
  ∃ req,
    issued (exec (RESTClient.call m args kwargs) st)
      = (issued st ++ [req])%list ∧
    assoc "auth" (keywords req) = Some a ∧
    assoc "timeout" (keywords req) = Some t ∧
    assoc "verify" (keywords req) = Some v.
Proof.
  intros Hc Hb He st.
  assert (Hcfg : configured st (PyStr b) a t v).
  { apply configured_after_calls.
    exact (new_configured cargs ckwargs _ st0 Hc). }
  destruct (call_performs m args kwargs vals st b e a t v Hcfg Hb He)
    as [extra Hp].
  eexists. unfold exec. rewrite Hp. cbn. eauto.
Qed.

(** C8. [post] issues a POST whose [data] and [json] keywords carry the
    two arguments as given, whatever they are and also when both are
    present, and what it returns is the decoded text of the response. *)
Theorem post_forwards_bodies args kwargs e data json st b a t v :
  configured st (PyStr b) a t v ->
  bind_args (RESTClient.signature POST) args kwargs
    = inr [PyStr e; data; json] ->
  let req := {| verb := POST; url := PyStr (b ++ e);
                keywords := [("auth", a); ("timeout", t); ("verify", v);
                             ("data", data); ("json", json)] |} in
  issued (exec (RESTClient.call POST args kwargs) st)
    = (issued st ++ [req])%list ∧
  ∀ response n,
    send req (net st) = (Ret response, n) ->
    result (RESTClient.call POST args kwargs) st
      = loads (Response.text response).
Proof.
  intros Hcfg Hb. cbn zeta. unfold RESTClient.call, exec, result.
  rewrite Hb. run_body Hcfg. cbn [arg nth].
  destruct (send _ (net st)) as [[r | x] n'] eqn:Hs; cbn.
  - split; [reflexivity |]. intros response n [= <- _]. reflexivity.
  - split; [reflexivity |]. intros response n [=].
Qed.

End Request_claims.

(** ** The returned value *)

Section Response_claims.
Context `{Transport}.

(** C3. No method looks at the status code: whichever status the response
    to the issued request carries, 2xx or not, a text that decodes makes
    the call return the decoded value. *)
Theorem status_not_inspected m args kwargs vals st b e a t v :
  configured st (PyStr b) a t v ->
  bind_args (RESTClient.signature m) args kwargs = inr vals ->
  arg 0 vals = PyStr e ->
  ∃ req,
    issued (exec (RESTClient.call m args kwargs) st)
      = (issued st ++ [req])%list ∧
    ∀ status body n value,
      send req (net st)
        = (Ret {| Response.status_code := status; Response.text := body |},
           n) ->
      loads body = Ret value ->
      result (RESTClient.call m args kwargs) st = Ret value.
Proof.
  intros Hcfg Hb He.
  destruct (call_performs m args kwargs vals st b e a t v Hcfg Hb He)
    as [extra Hp].
  eexists. unfold exec, result. rewrite Hp. cbn [fst snd issued].
  split; [reflexivity |].
  intros status body n value Hs Hl. rewrite Hs. cbn. exact Hl.
Qed.

(** C4. When the decoder rejects the text of the response, as it does for
    an empty body or one that is not JSON, the call raises the decoder's
    own exception, the very same one, and so returns no value. *)
Theorem decode_error_propagates m args kwargs vals st b e a t v :
  configured st (PyStr b) a t v ->
  bind_args (RESTClient.signature m) args kwargs = inr vals ->
  arg 0 vals = PyStr e ->
  ∃ req,
    issued (exec (RESTClient.call m args kwargs) st)
      = (issued st ++ [req])%list ∧
    ∀ response n err,
      send req (net st) = (Ret response, n) ->
      loads (Response.text response) = Raise err ->
      result (RESTClient.call m args kwargs) st = Raise err.
Proof.
  intros Hcfg Hb He.
  destruct (call_performs m args kwargs vals st b e a t v Hcfg Hb He)
    as [extra Hp].
  eexists. unfold exec, result. rewrite Hp. cbn [fst snd issued].
  split; [reflexivity |].
  intros response n err Hs Hl. rewrite Hs. cbn. exact Hl.
Qed.

End Response_claims.

(** ** Construction and configuration *)

Section Configuration_claims.
Context `{Transport}.

(** C7. After construction, any sequence of method calls, with any
    arguments, failing or not, leaves the instance's attributes as the
    constructor set them: [base_url], [auth], [timeout] and [verify] still
    hold the constructor's four values. *)
Theorem config_immutable cargs ckwargs base_url auth timeout verify
    calls st0 :
  bind_args RESTClient.init_signature cargs ckwargs
    = inr [base_url; auth; timeout; verify] ->
  let st := exec (RESTClient.new cargs ckwargs) st0 in
  self (RESTClient.after_calls calls st) = self st ∧
  configured (RESTClient.after_calls calls st)
    base_url auth timeout verify.
Proof.
  intros Hc st. split; [apply after_calls_self |].
  apply configured_after_calls.
  exact (new_configured cargs ckwargs _ st0 Hc).
Qed.

(** C9. The constructor accepts every string as base URL: called with it
    and up to three further positional arguments it returns normally,
    stores the string unchanged under [base_url], issues no request and
    does not touch the network. *)
Theorem constructor_accepts_any_base_url (s : string) optional st :
  (length optional <= 3)%nat ->
  let c := RESTClient.new (PyStr s :: optional) [] in
  result c st = Ret tt ∧
  self (exec c st) !! "base_url" = Some (PyStr s) ∧
  issued (exec c st) = issued st ∧
  net (exec c st) = net st.
Proof.
  intros Hlen c. subst c.
  destruct optional as [| a [| t [| v [| x optional]]]];
    [ | | | | cbn [length] in Hlen; lia ];
    unfold result, exec;
    (erewrite new_runs by reflexivity);
    cbn [fst snd self issued net arg nth];
    (split; [reflexivity | split; [by simplify_map_eq | done]]).
Qed.

(** C10, amended. The optional parameters of the five methods are
    [params] in [get], [data] and [json] in [post], [data] in [put] and in
    [patch], and each defaults to [None]; the constructor's [auth] and
    [timeout] default to [None] and its [verify] to [True].  No default of
    the class is an object that can be changed in place.  A call that
    gives only the endpoint binds [None] to every optional parameter and
    hands [None] to the transport under each of these names, and so does
    [post] for the one of [data] and [json] that is left out. *)
Theorem optional_parameter_defaults m st b e a t v :
  configured st (PyStr b) a t v ->
  let omitted := match m with
                 | GET => ["params"]
                 | POST => ["data"; "json"]
                 | PUT | PATCH => ["data"]
                 | DELETE => []
                 end in
  let sent kw := {| verb := m; url := PyStr (b ++ e);
                    keywords := ([("auth", a); ("timeout", t);
                                  ("verify", v)] ++ kw)%list |} in
  optional_parameters (RESTClient.signature m)
    = map (fun n => (n, PyNone)) omitted ∧
  optional_parameters RESTClient.init_signature
    = [("auth", PyNone); ("timeout", PyNone); ("verify", PyBool true)] ∧
  Forall (fun sig => Forall (fun p => mutable p.2 = false)
                       (optional_parameters sig)) public_interface ∧
  bind_args (RESTClient.signature m) [PyStr e] []
    = inr (PyStr e :: map (fun _ => PyNone) omitted) ∧
  issued (exec (RESTClient.call m [PyStr e] []) st)
    = (issued st ++ [sent (map (fun n => (n, PyNone)) omitted)])%list ∧
  ∀ x,
    issued (exec (RESTClient.call POST [PyStr e] [("json", x)]) st)
      = (issued st
           ++ [{| verb := POST; url := PyStr (b ++ e);
                  keywords := [("auth", a); ("timeout", t); ("verify", v);
                               ("data", PyNone); ("json", x)] |}])%list ∧
    issued (exec (RESTClient.call POST [PyStr e] [("data", x)]) st)
      = (issued st
           ++ [{| verb := POST; url := PyStr (b ++ e);
                  keywords := [("auth", a); ("timeout", t); ("verify", v);
                               ("data", x); ("json", PyNone)] |}])%list.
Proof.
  intros Hcfg. cbn zeta.
  split; [by destruct m |].
  split; [reflexivity |].
  split; [unfold public_interface; cbn; each_param; reflexivity |].
  split; [by destruct m |].
  split.
  - unfold RESTClient.call, exec.
    destruct m; cbn [bind_args RESTClient.signature]; cbn;
      run_body Hcfg;
      destruct (send _ (net st)) as [[r | x] n']; reflexivity.
  - intros x. unfold RESTClient.call, exec. cbn.
    run_body Hcfg.
    split; destruct (send _ (net st)) as [[r | x'] n']; reflexivity.
Qed.

End Configuration_claims.

(** ** [put] and [patch] called with [json=] *)

Section Keyword_claims.
Context `{Transport}.

(** C5. [put("/posts/1", json={"title": "Test"})], the call made by
    [test_put_request], does not reach the transport: [put] has no
    parameter named [json], so binding the arguments raises [TypeError]
    and the state is left as it was. *)
Theorem put_rejects_json_keyword st :
  RESTClient.call PUT [PyStr "/posts/1"] [("json", test_title)] st
    = (Raise (TypeError (UnexpectedKeyword "put" "json")), st).
Proof. reflexivity. Qed.

(** C6. [patch("/posts/1", json={"title": "Test"})], the call made by
    [test_patch_request], does not reach the transport either: [patch]
    has no parameter named [json]. *)
Theorem patch_rejects_json_keyword st :
  RESTClient.call PATCH [PyStr "/posts/1"] [("json", test_title)] st
    = (Raise (TypeError (UnexpectedKeyword "patch" "json")), st).
Proof. reflexivity. Qed.

(** For every argument and every state: only [post] takes [json]. *)
Lemma json_keyword_accepted_only_by_post m endpoint value :
  match bind_args (RESTClient.signature m) [endpoint] [("json", value)] with
  | inr _ => m = POST
  | inl _ => m ≠ POST
  end.
Proof. by destruct m. Qed.

End Keyword_claims.

(** ** The test suite, run against the mocks *)

Example test_post_request :
  subscript
    (RESTClient.call POST [PyStr "/posts"] [("json", test_title)]) "id"
    (setup_class (mocked (PyDict [("id", PyInt 101)])) tt)
  = Ret (PyInt 101).
Proof. reflexivity. Qed.

Example test_delete_request :
  result (RESTClient.call DELETE [PyStr "/posts/1"] [])
    (setup_class (mocked (PyDict [])) tt)
  = Ret (PyDict []).
Proof. reflexivity. Qed.

(** The two tests that pass [json=] to a method without that parameter
    end in [TypeError] before their assertion is reached. *)
Example test_put_request :
  subscript
    (RESTClient.call PUT [PyStr "/posts/1"] [("json", test_title)]) "title"
    (setup_class
       (mocked (PyDict [("id", PyInt 1); ("title", PyStr "Test")])) tt)
  = Raise (TypeError (UnexpectedKeyword "put" "json")).
Proof. reflexivity. Qed.

Example test_patch_request :
  subscript
    (RESTClient.call PATCH [PyStr "/posts/1"] [("json", test_title)]) "title"
    (setup_class
       (mocked (PyDict [("id", PyInt 1); ("title", PyStr "Test")])) tt)
  = Raise (TypeError (UnexpectedKeyword "patch" "json")).
Proof. reflexivity. Qed.

(** With the body passed as [data], the parameter [put] does have, the
    same mock gives the title the test expects. *)
Example put_with_data :
  subscript
    (RESTClient.call PUT [PyStr "/posts/1"] [("data", test_title)]) "title"
    (setup_class
       (mocked (PyDict [("id", PyInt 1); ("title", PyStr "Test")])) tt)
  = Ret (PyStr "Test").
Proof. reflexivity. Qed.

(** ** The theorems at concrete calls *)

Lemma url_is_concatenation_witness :
  ∃ req,
    issued (exec (RESTClient.call PUT [PyStr "/posts/1"]
                    [("data", test_title)])
              (setup_class not_found tt))
      = (issued (setup_class not_found tt) ++ [req])%list ∧
    verb req = PUT ∧
    url req = PyStr ("https://jsonplaceholder.typicode.com" ++ "/posts/1").
Proof.
  apply (url_is_concatenation (H := not_found) PUT [PyStr "/posts/1"]
           [("data", test_title)] [PyStr "/posts/1"; test_title]
           (setup_class not_found tt) _ _ PyNone PyNone (PyBool true)).
  - vm_compute. repeat split; reflexivity.
  - reflexivity.
  - reflexivity.
Defined.

Lemma config_forwarded_witness :
  let st := RESTClient.after_calls
              [(GET, [PyStr "/a"], []); (PUT, [], [("json", PyNone)])]
              (exec (RESTClient.new
                       [PyStr "http://localhost:8000"]
                       [("verify", PyBool false);
                        ("auth", PyTuple [PyStr "user"; PyStr "secret"]);
                        ("timeout", PyInt 30)])
                 (start not_found tt)) in
  ∃ req,
    issued (exec (RESTClient.call DELETE [PyStr "/posts/1"] []) st)
      = (issued st ++ [req])%list ∧
    assoc "auth" (keywords req)
      = Some (PyTuple [PyStr "user"; PyStr "secret"]) ∧
    assoc "timeout" (keywords req) = Some (PyInt 30) ∧
    assoc "verify" (keywords req) = Some (PyBool false).
Proof.
  apply (config_forwarded (H := not_found)
           [PyStr "http://localhost:8000"]
           [("verify", PyBool false);
            ("auth", PyTuple [PyStr "user"; PyStr "secret"]);
            ("timeout", PyInt 30)]
           "http://localhost:8000"
           (PyTuple [PyStr "user"; PyStr "secret"]) (PyInt 30)
           (PyBool false)
           [(GET, [PyStr "/a"], []); (PUT, [], [("json", PyNone)])]
           (start not_found tt)
           DELETE [PyStr "/posts/1"] [] [PyStr "/posts/1"] "/posts/1");
    reflexivity.
Defined.

Lemma post_forwards_bodies_witness :
  let st := setup_class not_found tt in
  let req := {| verb := POST;
                url := PyStr ("https://jsonplaceholder.typicode.com"
                                ++ "/posts");
                keywords := [("auth", PyNone); ("timeout", PyNone);
                             ("verify", PyBool true);
                             ("data", PyDict [("k", PyStr "v")]);
                             ("json", test_title)] |} in
  let c := RESTClient.call POST [PyStr "/posts"]
             [("json", test_title); ("data", PyDict [("k", PyStr "v")])] in
  issued (exec c st) = (issued st ++ [req])%list ∧
  result c st = Ret (PyDict []).
Proof.
  intros st req c.
  destruct (post_forwards_bodies (H := not_found) [PyStr "/posts"]
              [("json", test_title); ("data", PyDict [("k", PyStr "v")])]
              "/posts" (PyDict [("k", PyStr "v")]) test_title st
              "https://jsonplaceholder.typicode.com"
              PyNone PyNone (PyBool true)) as [Hi Hr].
  - vm_compute. repeat split; reflexivity.
  - reflexivity.
  - split; [exact Hi |].
    exact (Hr {| Response.status_code := 404; Response.text := "{}" |}
              tt eq_refl).
Defined.

Lemma status_not_inspected_witness :
  result (RESTClient.call GET [PyStr "/posts/0"] [])
    (setup_class not_found tt)
  = Ret (PyDict []).
Proof.
  destruct (status_not_inspected (H := not_found) GET [PyStr "/posts/0"] []
              [PyStr "/posts/0"; PyNone] (setup_class not_found tt)
              "https://jsonplaceholder.typicode.com" "/posts/0"
              PyNone PyNone (PyBool true)) as [req [_ Hr]].
  - vm_compute. repeat split; reflexivity.
  - reflexivity.
  - reflexivity.
  - exact (Hr 404 "{}" tt (PyDict []) eq_refl eq_refl).
Defined.

Lemma decode_error_propagates_witness :
  result (RESTClient.call DELETE [PyStr "/posts/1"] [])
    (setup_class empty_body tt)
  = Raise (JSONDecodeError "Expecting value").
Proof.
  destruct (decode_error_propagates (H := empty_body) DELETE
              [PyStr "/posts/1"] [] [PyStr "/posts/1"]
              (setup_class empty_body tt)
              "https://jsonplaceholder.typicode.com" "/posts/1"
              PyNone PyNone (PyBool true)) as [req [_ Hr]].
  - vm_compute. repeat split; reflexivity.
  - reflexivity.
  - reflexivity.
  - exact (Hr {| Response.status_code := 200;
                 Response.text := EmptyString |}
              tt (JSONDecodeError "Expecting value") eq_refl eq_refl).
Defined.

Lemma config_immutable_witness :
  let st := exec (RESTClient.new
                    [PyStr "http://localhost:8000";
                     PyTuple [PyStr "user"; PyStr "secret"]]
                    [("timeout", PyInt 30)])
              (start not_found tt) in
  let calls := [(GET, [PyStr "/a"], [("params", PyDict [("q", PyStr "x")])]);
                (PUT, [PyStr "/a"], [("json", test_title)]);
                (POST, [PyInt 1], [])] in
  self (RESTClient.after_calls calls st) = self st ∧
  configured (RESTClient.after_calls calls st)
    (PyStr "http://localhost:8000")
    (PyTuple [PyStr "user"; PyStr "secret"]) (PyInt 30) (PyBool true).
Proof.
  apply (config_immutable (H := not_found)
           [PyStr "http://localhost:8000";
            PyTuple [PyStr "user"; PyStr "secret"]]
           [("timeout", PyInt 30)]).
  reflexivity.
Defined.

Lemma constructor_accepts_any_base_url_witness :
  let c := RESTClient.new (H := not_found) [PyStr "not a url"] [] in
  result c (start not_found tt) = Ret tt ∧
  self (exec c (start not_found tt)) !! "base_url"
    = Some (PyStr "not a url") ∧
  issued (exec c (start not_found tt)) = [] ∧
  net (exec c (start not_found tt)) = tt.
Proof.
  apply (constructor_accepts_any_base_url (H := not_found) "not a url" []
           (start not_found tt)).
  cbn. lia.
Defined.

Lemma optional_parameter_defaults_witness :
  let st := setup_class not_found tt in
  let url := PyStr ("https://jsonplaceholder.typicode.com" ++ "/posts") in
  let config := [("auth", PyNone); ("timeout", PyNone);
                 ("verify", PyBool true)] in
  optional_parameters (RESTClient.signature POST)
    = [("data", PyNone); ("json", PyNone)] ∧
  bind_args (RESTClient.signature POST) [PyStr "/posts"] []
    = inr [PyStr "/posts"; PyNone; PyNone] ∧
  issued (exec (RESTClient.call POST [PyStr "/posts"] []) st)
    = (issued st
         ++ [{| verb := POST; url := url;
                keywords := (config ++ [("data", PyNone);
                                        ("json", PyNone)])%list |}])%list.
Proof.
  intros st url config.
  destruct (optional_parameter_defaults (H := not_found) POST
              (setup_class not_found tt)
              "https://jsonplaceholder.typicode.com" "/posts"
              PyNone PyNone (PyBool true))
    as (Ho & _ & _ & Hb & Hi & _).
  - vm_compute. repeat split; reflexivity.
  - exact (conj Ho (conj Hb Hi)).
Defined.

(** C10 as first stated fails at the constructor: [verify] is an optional
    parameter of the public interface and its default is [True]. *)
Lemma verify_default_is_True :
  RESTClient.init_signature ∈ public_interface ∧
  ("verify", PyBool true)
    ∈ optional_parameters RESTClient.init_signature ∧
  self (exec (RESTClient.new [PyStr "http://localhost:8000"] [])
          (start not_found tt)) !! "verify" = Some (PyBool true) ∧
  ¬ Forall (fun sig => Forall (fun p => p.2 = PyNone)
                         (optional_parameters sig)) public_interface.
Proof.
  split; [apply list_elem_of_here |].
  split; [cbn; do 2 apply list_elem_of_further; apply list_elem_of_here |].
  split; [reflexivity |].
  intros Hall. apply Forall_cons in Hall as [Hinit _].
  cbn in Hinit. rewrite !Forall_cons in Hinit.
  destruct Hinit as (_ & _ & Hverify & _). discriminate Hverify.
Qed.

(** * Further properties *)

(** ** Argument binding *)

Lemma set_keyword_error fn k v slots e :
  set_keyword fn k v slots = inl e -> ∃ why, e = TypeError why.
Proof.
  revert e. induction slots as [| [n s] rest IH]; intros e; cbn.
  - intros [= <-]. eauto.
  - destruct (String.eqb n k).
    + destruct s; intros [= <-]; eauto.
    + destruct (set_keyword fn k v rest) as [e' |]; [| discriminate].
      intros [= <-]. eauto.
Qed.

Lemma set_keyword_names fn k v slots slots' :
  set_keyword fn k v slots = inr slots' -> slots'.*1 = slots.*1.
Proof.
  revert slots'. induction slots as [| [n s] rest IH]; intros slots'; cbn.
  - discriminate.
  - destruct (String.eqb n k).
    + destruct s; [discriminate |]. by intros [= <-].
    + destruct (set_keyword fn k v rest) as [| rest']; [discriminate |].
      intros [= <-]. cbn. by rewrite (IH rest').
Qed.

Lemma set_keyword_unknown fn k v slots :
  k ∉ slots.*1 ->
  set_keyword fn k v slots = inl (TypeError (UnexpectedKeyword fn k)).
Proof.
  induction slots as [| [n s] rest IH]; cbn; [done |].
  intros Hk. apply not_elem_of_cons in Hk as [Hne Hk].
  destruct (String.eqb_spec n k) as [-> | _]; [done |].
  by rewrite IH.
Qed.

Lemma set_keywords_error fn kwargs slots e :
  set_keywords fn kwargs slots = inl e -> ∃ why, e = TypeError why.
Proof.
  revert slots. induction kwargs as [| [k v] rest IH]; intros slots; cbn.
  - discriminate.
  - destruct (set_keyword fn k v slots) as [e' | slots'] eqn:Hk.
    + intros [= <-]. by eapply set_keyword_error.
    + apply IH.
Qed.

Lemma set_keywords_unknown fn kwargs slots k :
  k ∈ kwargs.*1 -> k ∉ slots.*1 ->
  ∃ why, set_keywords fn kwargs slots = inl (TypeError why).
Proof.
  revert slots. induction kwargs as [| [k0 v0] rest IH]; intros slots; cbn.
  - by intros ?%elem_of_nil.
  - intros [-> | Hin]%elem_of_cons Hk.
    + rewrite (set_keyword_unknown _ _ _ _ Hk). eauto.
    + destruct (set_keyword fn k0 v0 slots) as [e | slots'] eqn:Hs.
      * destruct (set_keyword_error _ _ _ _ _ Hs) as [why ->]. eauto.
      * apply IH; [done |]. by rewrite (set_keyword_names _ _ _ _ _ Hs).
Qed.

Lemma set_keywords_first_unset fn kwargs n rest slots :
  assoc n kwargs = None ->
  set_keywords fn kwargs ((n, None) :: rest) = inr slots ->
  ∃ rest', slots = (n, None) :: rest'.
Proof.
  revert rest. induction kwargs as [| [k v] kwargs IH]; intros rest; cbn.
  - intros _ [= <-]. eauto.
  - rewrite String.eqb_sym.
    destruct (String.eqb n k); [discriminate |].
    intros Hn.
    destruct (set_keyword fn k v rest) as [| rest1]; [discriminate |].
    by apply IH.
Qed.

Lemma fill_positional_names ps args : (fill_positional ps args).*1 = ps.*1.
Proof.
  revert args. induction ps as [| [n d] ps IH]; intros args; [done |].
  destruct args; cbn; by rewrite IH.
Qed.

Lemma fill_defaults_error fn ps slots e :
  fill_defaults fn ps slots = inl e -> ∃ why, e = TypeError why.
Proof.
  revert slots. induction ps as [| [n d] ps IH]; intros slots; cbn.
  - discriminate.
  - destruct slots as [| [n' s] slots]; [discriminate |].
    destruct (match s with Some v => Some v | None => d end).
    + destruct (fill_defaults fn ps slots) as [e' |] eqn:Hf; [| discriminate].
      intros [= <-]. by eapply IH.
    + intros [= <-]. eauto.
Qed.

Lemma bind_args_error sig args kwargs e :
  bind_args sig args kwargs = inl e -> ∃ why, e = TypeError why.
Proof.
  unfold bind_args.
  destruct (set_keywords _ _ _) as [e' | slots] eqn:Hk.
  - intros [= <-]. by eapply set_keywords_error.
  - destruct (_ <? _)%nat.
    + intros [= <-]. eauto.
    + apply fill_defaults_error.
Qed.

Lemma bind_args_unknown_keyword sig args kwargs k :
  k ∈ kwargs.*1 -> k ∉ (fn_params sig).*1 ->
  ∃ why, bind_args sig args kwargs = inl (TypeError why).
Proof.
  intros Hin Hk. unfold bind_args.
  destruct (set_keywords_unknown (fn_name sig) kwargs
              (fill_positional (fn_params sig) args) k Hin) as [why ->];
    [by rewrite fill_positional_names | eauto].
Qed.

Lemma bind_args_surplus sig args kwargs :
  (length (fn_params sig) < length args)%nat ->
  ∃ why, bind_args sig args kwargs = inl (TypeError why).
Proof.
  intros Hlen. unfold bind_args.
  destruct (set_keywords _ _ _) as [e | slots] eqn:Hk.
  - destruct (set_keywords_error _ _ _ _ Hk) as [why ->]. eauto.
  - apply Nat.ltb_lt in Hlen. rewrite Hlen. eauto.
Qed.

Lemma bind_args_first_missing sig n ps kwargs :
  fn_params sig = (n, None) :: ps ->
  assoc n kwargs = None ->
  ∃ why, bind_args sig [] kwargs = inl (TypeError why).
Proof.
  intros Hps Hn. unfold bind_args. rewrite Hps. cbn [fill_positional].
  destruct (set_keywords _ _ _) as [e | slots] eqn:Hk.
  - destruct (set_keywords_error _ _ _ _ Hk) as [why ->]. eauto.
  - destruct (set_keywords_first_unset _ _ _ _ _ Hn Hk) as [rest' ->].
    cbn. eauto.
Qed.

Lemma set_keyword_swap fn k1 v1 k2 v2 slots s1 s2 :
  set_keyword fn k1 v1 slots = inr s1 ->
  set_keyword fn k2 v2 s1 = inr s2 ->
  ∃ s1', set_keyword fn k2 v2 slots = inr s1' ∧
         set_keyword fn k1 v1 s1' = inr s2.
Proof.
  revert s1 s2. induction slots as [| [n s] rest IH]; intros s1 s2; cbn.
  - discriminate.
  - destruct (String.eqb n k1) eqn:E1.
    + destruct s; [discriminate |]. intros [= <-]. cbn.
      destruct (String.eqb n k2) eqn:E2; [discriminate |].
      destruct (set_keyword fn k2 v2 rest) as [| rest2]; [discriminate |].
      intros [= <-]. eexists. split; [reflexivity |].
      cbn. by rewrite E1.
    + destruct (set_keyword fn k1 v1 rest) as [| rest1] eqn:H1;
        [discriminate |].
      intros [= <-]. cbn.
      destruct (String.eqb n k2) eqn:E2.
      * destruct s; [discriminate |]. intros [= <-].
        eexists. split; [reflexivity |]. cbn. by rewrite E1, H1.
      * destruct (set_keyword fn k2 v2 rest1) as [| rest2] eqn:H2;
          [discriminate |].
        intros [= <-].
        destruct (IH rest1 rest2 eq_refl H2) as (rest1' & Ha & Hb).
        rewrite Ha. eexists. split; [reflexivity |].
        cbn. by rewrite E1, Hb.
Qed.

Lemma set_keywords_perm fn kwargs kwargs' :
  kwargs ≡ₚ kwargs' ->
  ∀ slots s,
    set_keywords fn kwargs slots = inr s ->
    set_keywords fn kwargs' slots = inr s.
Proof.
  induction 1 as [| [k v] kw kw' _ IH | [k1 v1] [k2 v2] kw | ? ? ? _ IH1 _ IH2];
    intros slots s; cbn.
  - done.
  - destruct (set_keyword fn k v slots); [discriminate | apply IH].
  - destruct (set_keyword fn k2 v2 slots) as [| s1] eqn:H1; [discriminate |].
    destruct (set_keyword fn k1 v1 s1) as [| s2] eqn:H2; [discriminate |].
    destruct (set_keyword_swap _ _ _ _ _ _ _ _ H1 H2) as (s1' & -> & ->).
    done.
  - eauto.
Qed.

Lemma bind_args_perm sig args kwargs kwargs' vals :
  kwargs ≡ₚ kwargs' ->
  bind_args sig args kwargs = inr vals ->
  bind_args sig args kwargs' = inr vals.
Proof.
  intros Hp. unfold bind_args.
  destruct (set_keywords _ kwargs _) as [| slots] eqn:Hk; [discriminate |].
  by rewrite (set_keywords_perm _ _ _ Hp _ _ Hk).
Qed.

(** With [vals] given for the first parameters of a method, the last of
    them from position [i] on may be passed by keyword. *)
Lemma bind_args_trailing_keywords m v0 vals i :
  (length (v0 :: vals) <= length (fn_params (RESTClient.signature m)))%nat ->
  ∃ bound,
    bind_args (RESTClient.signature m) (take i (v0 :: vals))
      (drop i (zip (fn_params (RESTClient.signature m)).*1 (v0 :: vals)))
      = inr bound ∧
    bind_args (RESTClient.signature m) (v0 :: vals) [] = inr bound.
Proof.
  intros Hlen.
  destruct m; cbn in Hlen;
    repeat (destruct vals as [| ? vals]; cbn in Hlen; try lia);
    do 4 (destruct i as [| i]; [eexists; split; reflexivity |]);
    eexists; split; reflexivity.
Qed.

(** ** Calls that do not match the [def] line *)

Section Rejected_calls.
Context `{Transport}.

(** X1. A keyword argument that the method's [def] line does not name
    makes the call raise [TypeError]; no request is issued and the state
    is left as it was. *)
Theorem unknown_keyword_rejected m args kwargs k st :
  k ∈ kwargs.*1 ->
  k ∉ (fn_params (RESTClient.signature m)).*1 ->
  ∃ why, RESTClient.call m args kwargs st = (Raise (TypeError why), st).
Proof.
  intros Hin Hk. unfold RESTClient.call.
  destruct (bind_args_unknown_keyword _ args kwargs k Hin Hk) as [why ->].
  eauto.
Qed.

(** X2. More positional arguments than the method has parameters make
    the call raise [TypeError], with no request issued and the state left
    as it was. *)
Theorem surplus_positional_rejected m args kwargs st :
  (length (fn_params (RESTClient.signature m)) < length args)%nat ->
  ∃ why, RESTClient.call m args kwargs st = (Raise (TypeError why), st).
Proof.
  intros Hlen. unfold RESTClient.call.
  destruct (bind_args_surplus _ args kwargs Hlen) as [why ->]. eauto.
Qed.

(** X3. The endpoint is required by every method: a call that gives it
    neither by position nor by keyword raises [TypeError], with no request
    issued and the state left as it was. *)
Theorem endpoint_required m kwargs st :
  assoc "endpoint" kwargs = None ->
  ∃ why, RESTClient.call m [] kwargs st = (Raise (TypeError why), st).
Proof.
  intros Hn. unfold RESTClient.call.
  assert (∃ ps, fn_params (RESTClient.signature m)
                = ("endpoint", None) :: ps) as [ps Hps]
    by (destruct m; cbn; eauto).
  destruct (bind_args_first_missing _ _ _ kwargs Hps Hn) as [why ->].
  eauto.
Qed.

(** X4. The base URL is required by the constructor: without it the call
    raises [TypeError] and no attribute is set. *)
Theorem constructor_requires_base_url kwargs st :
  assoc "base_url" kwargs = None ->
  ∃ why, RESTClient.new [] kwargs st = (Raise (TypeError why), st).
Proof.
  intros Hn. unfold RESTClient.new.
  destruct (bind_args_first_missing RESTClient.init_signature _ _ kwargs
              eq_refl Hn) as [why ->].
  eauto.
Qed.

(** X5. With a string as base URL, an endpoint that is one of the
    built-in values [None], a boolean, an integer, a tuple, a list or a
    dictionary makes [self.base_url + endpoint] raise [TypeError]: the
    call stops there, issues no request and leaves the state as it
    was. *)
Theorem non_string_endpoint_rejected m args kwargs vals st b a t v :
  configured st (PyStr b) a t v ->
  bind_args (RESTClient.signature m) args kwargs = inr vals ->
  (∀ e, arg 0 vals ≠ PyStr e) ->
  RESTClient.call m args kwargs st
    = (Raise (TypeError (UnsupportedOperand "+")), st).
Proof.
  intros Hcfg Hb Hne. unfold RESTClient.call. rewrite Hb.
  destruct Hcfg as (Hbase & _).
  destruct m; cbn [RESTClient.body];
    unfold RESTClient.get, RESTClient.post, RESTClient.put,
      RESTClient.delete, RESTClient.patch;
    unfold mbind, M_bind, getattr, lift; rewrite Hbase;
    (destruct (arg 0 vals) as [| | | e | | |] eqn:He;
     [ | | | by destruct (Hne e) | | | ]); reflexivity.
Qed.

End Rejected_calls.

(** ** Failures and the request log *)

Section Failure_properties.
Context `{Transport}.

Lemma body_issued m vals st :
  issued (RESTClient.body m vals st).2 = issued st ∨
  ∃ req, issued (RESTClient.body m vals st).2 = (issued st ++ [req])%list
         ∧ verb req = m.
Proof.
  destruct m; cbn [RESTClient.body];
    unfold RESTClient.get, RESTClient.post, RESTClient.put,
      RESTClient.delete, RESTClient.patch;
    unfold mbind, M_bind, getattr, lift, requests, response_json;
    repeat (match goal with
            | |- context [self st !! ?k] => destruct (self st !! k)
            | |- context [py_add ?x ?y] => destruct (py_add x y)
            | |- context [send ?r ?n] => destruct (send r n) as [[? | ?] ?]
            | |- context [loads ?s] => destruct (loads s)
            end; cbn [fst snd self issued]);
    eauto.
Qed.

Lemma call_issued m args kwargs st :
  issued (exec (RESTClient.call m args kwargs) st) = issued st ∨
  ∃ req, issued (exec (RESTClient.call m args kwargs) st)
           = (issued st ++ [req])%list
         ∧ verb req = m.
Proof.
  unfold exec, RESTClient.call.
  destruct (bind_args _ _ _); [by left | apply body_issued].
Qed.

(** X6. When the transport raises instead of answering, the call raises
    that same exception; the request has been issued, the instance is
    unchanged and the decoder has no part in the outcome. *)
Theorem transport_error_propagates m args kwargs vals st b e a t v :
  configured st (PyStr b) a t v ->
  bind_args (RESTClient.signature m) args kwargs = inr vals ->
  arg 0 vals = PyStr e ->
  ∃ req,
    verb req = m ∧ url req = PyStr (b ++ e) ∧
    ∀ x n,
      send req (net st) = (Raise x, n) ->
      RESTClient.call m args kwargs st
        = (Raise x, {| self := self st; net := n;
                       issued := (issued st ++ [req])%list |}).
Proof.
  intros Hcfg Hb He.
  destruct (call_performs m args kwargs vals st b e a t v Hcfg Hb He)
    as [extra Hp].
  eexists. split; [| split]; [| | intros x n Hs; rewrite Hp, Hs];
    reflexivity.
Qed.

(** X7. A well-formed call on a constructed client raises only what the
    transport raised for the issued request or what the decoder raised
    for the text of the response; the client adds no exception of its
    own. *)
Theorem exceptions_come_from_collaborators
    m args kwargs vals st b e a t v x :
  configured st (PyStr b) a t v ->
  bind_args (RESTClient.signature m) args kwargs = inr vals ->
  arg 0 vals = PyStr e ->
  result (RESTClient.call m args kwargs) st = Raise x ->
  ∃ req,
    issued (exec (RESTClient.call m args kwargs) st)
      = (issued st ++ [req])%list ∧
    ((send req (net st)).1 = Raise x ∨
     ∃ response,
       (send req (net st)).1 = Ret response ∧
       loads (Response.text response) = Raise x).
Proof.
  intros Hcfg Hb He.
  destruct (call_performs m args kwargs vals st b e a t v Hcfg Hb He)
    as [extra Hp].
  unfold result, exec. rewrite Hp. cbn [fst snd issued]. intros Hx.
  eexists. split; [reflexivity |].
  destruct (send _ (net st)).1 as [response | x'].
  - right. eauto.
  - left. congruence.
Qed.

(** X8. A call, whatever its arguments and whatever state it starts in,
    issues at most one request, through the function of [requests] named
    like the method, and keeps the earlier requests in place: no retry, no
    second attempt. *)
Theorem at_most_one_request m args kwargs st :
  issued (exec (RESTClient.call m args kwargs) st) = issued st ∨
  ∃ req,
    issued (exec (RESTClient.call m args kwargs) st)
      = (issued st ++ [req])%list ∧
    verb req = m.
Proof. apply call_issued. Qed.

(** X9. Over any sequence of calls the log only grows at its end, by at
    most one request per call. *)
Theorem log_grows calls st :
  issued st `prefix_of` issued (RESTClient.after_calls calls st) ∧
  (length (issued (RESTClient.after_calls calls st))
     <= length (issued st) + length calls)%nat.
Proof.
  unfold RESTClient.after_calls. revert st.
  induction calls as [| [[m args] kwargs] calls IH]; intros st; cbn [foldl].
  - split; [done | lia].
  - destruct (IH (exec (RESTClient.call m args kwargs) st)) as [Hp Hl].
    cbn [fst snd length] in *.
    destruct (call_issued m args kwargs st) as [Hi | (req & Hi & _)];
      rewrite Hi in Hp, Hl.
    + split; [done | lia].
    + split.
      * etrans; [apply prefix_app_r; reflexivity | exact Hp].
      * rewrite length_app in Hl. cbn in Hl. lia.
Qed.

End Failure_properties.

(** ** What each method sends *)

Section Method_properties.
Context `{Transport}.

(** X11. [get] issues a GET whose keywords are the three configured
    values and [params], the query parameters exactly as the caller gave
    them; it sends neither [data] nor [json]. *)
Theorem get_forwards_params args kwargs e params st b a t v :
  configured st (PyStr b) a t v ->
  bind_args (RESTClient.signature GET) args kwargs
    = inr [PyStr e; params] ->
  issued (exec (RESTClient.call GET args kwargs) st)
    = (issued st
         ++ [{| verb := GET; url := PyStr (b ++ e);
                keywords := [("auth", a); ("timeout", t); ("verify", v);
                             ("params", params)] |}])%list.
Proof.
  intros Hcfg Hb. unfold RESTClient.call, exec. rewrite Hb.
  run_body Hcfg. cbn [arg nth].
  destruct (send _ (net st)) as [[r | x] n']; reflexivity.
Qed.

(** X12. [put] and [patch] issue the same request but for the function
    called: the three configured values and [data] as given, and never a
    [json] keyword. *)
Theorem put_and_patch_forward_data m args kwargs e data st b a t v :
  m = PUT ∨ m = PATCH ->
  configured st (PyStr b) a t v ->
  bind_args (RESTClient.signature m) args kwargs = inr [PyStr e; data] ->
  issued (exec (RESTClient.call m args kwargs) st)
    = (issued st
         ++ [{| verb := m; url := PyStr (b ++ e);
                keywords := [("auth", a); ("timeout", t); ("verify", v);
                             ("data", data)] |}])%list.
Proof.
  intros Hm Hcfg Hb. unfold RESTClient.call, exec. rewrite Hb.
  destruct Hm as [-> | ->]; run_body Hcfg; cbn [arg nth];
    destruct (send _ (net st)) as [[r | x] n']; reflexivity.
Qed.

(** X13. [delete] sends the three configured values and nothing else: no
    query parameters and no body of either kind. *)
Theorem delete_sends_no_body args kwargs e st b a t v :
  configured st (PyStr b) a t v ->
  bind_args (RESTClient.signature DELETE) args kwargs = inr [PyStr e] ->
  issued (exec (RESTClient.call DELETE args kwargs) st)
    = (issued st
         ++ [{| verb := DELETE; url := PyStr (b ++ e);
                keywords := [("auth", a); ("timeout", t);
                             ("verify", v)] |}])%list.
Proof.
  intros Hcfg Hb. unfold RESTClient.call, exec. rewrite Hb.
  run_body Hcfg. cbn [arg nth].
  destruct (send _ (net st)) as [[r | x] n']; reflexivity.
Qed.

(** X14. When values are given for the first parameters of a method, it
    is the same call whether all are passed by position or the last of
    them, from any position on and up to all of them with the endpoint,
    are passed by keyword, in any order. *)
Theorem keywords_or_positions m vals i kwargs :
  (length vals <= length (fn_params (RESTClient.signature m)))%nat ->
  kwargs ≡ₚ drop i (zip (fn_params (RESTClient.signature m)).*1 vals) ->
  RESTClient.call m (take i vals) kwargs = RESTClient.call m vals [].
Proof.
  intros Hlen Hp. destruct vals as [| v0 vals].
  - assert (Hz : ∀ names : list string, zip names ([] : list PyVal) = [])
      by (by intros []).
    rewrite Hz, drop_nil in Hp. apply Permutation_nil_r in Hp as ->.
    by rewrite take_nil.
  - destruct (bind_args_trailing_keywords m v0 vals i Hlen)
      as (bound & Hk & Hpos).
    unfold RESTClient.call.
    symmetry in Hp. by rewrite (bind_args_perm _ _ _ _ _ Hp Hk), Hpos.
Qed.

(** X15. The constructor sets exactly the four attributes [base_url],
    [auth], [timeout] and [verify], to the values bound to its parameters,
    whichever way they were passed, and nothing of an earlier instance
    remains. *)
Theorem constructor_sets_four_attributes args kwargs b a t v st :
  bind_args RESTClient.init_signature args kwargs = inr [b; a; t; v] ->
  self (exec (RESTClient.new args kwargs) st)
    = <["verify" := v]> (<["timeout" := t]>
        (<["auth" := a]> (<["base_url" := b]> ∅))) ∧
  dom (self (exec (RESTClient.new args kwargs) st))
    = ({["base_url"; "auth"; "timeout"; "verify"]} : gset string).
Proof.
  intros Hb. unfold exec. rewrite (new_runs _ _ _ _ Hb).
  cbn [snd self arg nth]. split; [reflexivity |].
  rewrite !dom_insert_L, dom_empty_L. set_solver.
Qed.

(** X16. A client built from the base URL alone sends, on every later
    call, no credentials, no timeout and [verify=True]: certificate
    checking is on unless the caller turns it off. *)
Theorem default_configuration_forwarded b calls st0 m args kwargs vals e :
  bind_args (RESTClient.signature m) args kwargs = inr vals ->
  arg 0 vals = PyStr e ->
  let st := RESTClient.after_calls calls
              (exec (RESTClient.new [PyStr b] []) st0) in
  ∃ req,
    issued (exec (RESTClient.call m args kwargs) st)
      = (issued st ++ [req])%list ∧
    assoc "auth" (keywords req) = Some PyNone ∧
    assoc "timeout" (keywords req) = Some PyNone ∧
    assoc "verify" (keywords req) = Some (PyBool true).
Proof.
  intros Hb He st.
  assert (Hcfg : configured st (PyStr b) PyNone PyNone (PyBool true)).
  { apply configured_after_calls.
    exact (new_configured [PyStr b] [] _ st0 eq_refl). }
  destruct (call_performs m args kwargs vals st b e _ _ _ Hcfg Hb He)
    as [extra Hp].
  eexists. unfold exec. rewrite Hp. cbn. eauto.
Qed.

End Method_properties.

(** ** The mocked tests *)

(** X17. Against the mock of the test suite, whose response decodes to
    [mock_response], every well-formed call of every method on the test
    client returns [mock_response], whatever was sent; so
    [response[k]] is the mock's value under [k]. *)
Theorem mocked_call_returns_mock_response
    mock_response m args kwargs vals e :
  bind_args (RESTClient.signature m) args kwargs = inr vals ->
  arg 0 vals = PyStr e ->
  result (RESTClient.call m args kwargs)
    (setup_class (mocked mock_response) tt)
  = Ret mock_response.
Proof.
  intros Hb He.
  assert (Hcfg : configured (setup_class (mocked mock_response) tt)
                   (PyStr "https://jsonplaceholder.typicode.com")
                   PyNone PyNone (PyBool true)).
  { exact (new_configured (H := mocked mock_response)
             [PyStr "https://jsonplaceholder.typicode.com"] [] _
             (start (mocked mock_response) tt) eq_refl). }
  destruct (call_performs (H := mocked mock_response) m args kwargs vals
              _ _ e _ _ _ Hcfg Hb He) as [extra Hp].
  unfold result. rewrite Hp. reflexivity.
Qed.

(** ** The further properties at concrete calls *)

Lemma unknown_keyword_rejected_witness :
  ∃ why,
    RESTClient.call GET [PyStr "/posts"] [("data", test_title)]
      (setup_class not_found tt)
    = (Raise (TypeError why), setup_class not_found tt).
Proof.
  apply (unknown_keyword_rejected (H := not_found) GET [PyStr "/posts"]
           [("data", test_title)] "data" (setup_class not_found tt)).
  - apply (bool_decide_unpack _). vm_compute. exact I.
  - apply (bool_decide_unpack _). vm_compute. exact I.
Defined.

Lemma surplus_positional_rejected_witness :
  ∃ why,
    RESTClient.call DELETE [PyStr "/posts/1"; test_title] []
      (setup_class not_found tt)
    = (Raise (TypeError why), setup_class not_found tt).
Proof.
  apply (surplus_positional_rejected (H := not_found) DELETE
           [PyStr "/posts/1"; test_title] [] (setup_class not_found tt)).
  cbn. lia.
Defined.

Lemma endpoint_required_witness :
  ∃ why,
    RESTClient.call POST [] [("json", test_title)]
      (setup_class not_found tt)
    = (Raise (TypeError why), setup_class not_found tt).
Proof.
  apply (endpoint_required (H := not_found) POST [("json", test_title)]
           (setup_class not_found tt)).
  reflexivity.
Defined.

Lemma constructor_requires_base_url_witness :
  ∃ why,
    RESTClient.new [] [("timeout", PyInt 5)] (start not_found tt)
    = (Raise (TypeError why), start not_found tt).
Proof.
  apply (constructor_requires_base_url (H := not_found)
           [("timeout", PyInt 5)] (start not_found tt)).
  reflexivity.
Defined.

Lemma non_string_endpoint_rejected_witness :
  RESTClient.call GET [PyInt 1] [] (setup_class not_found tt)
  = (Raise (TypeError (UnsupportedOperand "+")), setup_class not_found tt).
Proof.
  apply (non_string_endpoint_rejected (H := not_found) GET [PyInt 1] []
           [PyInt 1; PyNone] (setup_class not_found tt)
           "https://jsonplaceholder.typicode.com"
           PyNone PyNone (PyBool true)).
  - vm_compute. repeat split; reflexivity.
  - reflexivity.
  - intros e. cbn. discriminate.
Defined.

Lemma transport_error_propagates_witness :
  result (RESTClient.call GET [PyStr "/posts/1"] [])
    (setup_class refusing tt)
  = Raise (RequestException "Connection refused").
Proof.
  destruct (transport_error_propagates (H := refusing) GET
              [PyStr "/posts/1"] [] [PyStr "/posts/1"; PyNone]
              (setup_class refusing tt)
              "https://jsonplaceholder.typicode.com" "/posts/1"
              PyNone PyNone (PyBool true)) as (req & _ & _ & Hx).
  - vm_compute. repeat split; reflexivity.
  - reflexivity.
  - reflexivity.
  - unfold result.
    rewrite (Hx (RequestException "Connection refused") tt eq_refl).
    reflexivity.
Defined.

Lemma exceptions_come_from_collaborators_witness :
  ∃ req,
    issued (exec (RESTClient.call DELETE [PyStr "/posts/1"] [])
              (setup_class empty_body tt))
      = (issued (setup_class empty_body tt) ++ [req])%list ∧
    ((send req (net (setup_class empty_body tt))).1
       = Raise (JSONDecodeError "Expecting value") ∨
     ∃ response,
       (send req (net (setup_class empty_body tt))).1 = Ret response ∧
       @loads empty_body (Response.text response)
         = Raise (JSONDecodeError "Expecting value")).
Proof.
  apply (exceptions_come_from_collaborators (H := empty_body) DELETE
           [PyStr "/posts/1"] [] [PyStr "/posts/1"]
           (setup_class empty_body tt)
           "https://jsonplaceholder.typicode.com" "/posts/1"
           PyNone PyNone (PyBool true)).
  - vm_compute. repeat split; reflexivity.
  - reflexivity.
  - reflexivity.
  - reflexivity.
Defined.

Lemma get_forwards_params_witness :
  issued (exec (RESTClient.call GET [PyStr "/posts"]
                  [("params", PyDict [("userId", PyStr "1")])])
            (setup_class not_found tt))
  = (issued (setup_class not_found tt)
       ++ [{| verb := GET;
              url := PyStr ("https://jsonplaceholder.typicode.com"
                              ++ "/posts");
              keywords := [("auth", PyNone); ("timeout", PyNone);
                           ("verify", PyBool true);
                           ("params", PyDict [("userId", PyStr "1")])]
           |}])%list.
Proof.
  apply (get_forwards_params (H := not_found) [PyStr "/posts"]
           [("params", PyDict [("userId", PyStr "1")])] "/posts"
           (PyDict [("userId", PyStr "1")]) (setup_class not_found tt)
           "https://jsonplaceholder.typicode.com"
           PyNone PyNone (PyBool true)).
  - vm_compute. repeat split; reflexivity.
  - reflexivity.
Defined.

Lemma put_and_patch_forward_data_witness :
  issued (exec (RESTClient.call PATCH [PyStr "/posts/1"; test_title] [])
            (setup_class not_found tt))
  = (issued (setup_class not_found tt)
       ++ [{| verb := PATCH;
              url := PyStr ("https://jsonplaceholder.typicode.com"
                              ++ "/posts/1");
              keywords := [("auth", PyNone); ("timeout", PyNone);
                           ("verify", PyBool true);
                           ("data", test_title)] |}])%list.
Proof.
  apply (put_and_patch_forward_data (H := not_found) PATCH
           [PyStr "/posts/1"; test_title] [] "/posts/1" test_title
           (setup_class not_found tt)
           "https://jsonplaceholder.typicode.com"
           PyNone PyNone (PyBool true)).
  - right. reflexivity.
  - vm_compute. repeat split; reflexivity.
  - reflexivity.
Defined.

Lemma delete_sends_no_body_witness :
  issued (exec (RESTClient.call DELETE [] [("endpoint", PyStr "/posts/1")])
            (setup_class not_found tt))
  = (issued (setup_class not_found tt)
       ++ [{| verb := DELETE;
              url := PyStr ("https://jsonplaceholder.typicode.com"
                              ++ "/posts/1");
              keywords := [("auth", PyNone); ("timeout", PyNone);
                           ("verify", PyBool true)] |}])%list.
Proof.
  apply (delete_sends_no_body (H := not_found) []
           [("endpoint", PyStr "/posts/1")] "/posts/1"
           (setup_class not_found tt)
           "https://jsonplaceholder.typicode.com"
           PyNone PyNone (PyBool true)).
  - vm_compute. repeat split; reflexivity.
  - reflexivity.
Defined.

Lemma constructor_sets_four_attributes_witness :
  let st := exec (RESTClient.new [PyStr "http://localhost:8000"]
                    [("verify", PyBool false)])
              (setup_class not_found tt) in
  self st
    = <["verify" := PyBool false]> (<["timeout" := PyNone]>
        (<["auth" := PyNone]>
           (<["base_url" := PyStr "http://localhost:8000"]> ∅))) ∧
  dom (self st)
    = ({["base_url"; "auth"; "timeout"; "verify"]} : gset string).
Proof.
  apply (constructor_sets_four_attributes (H := not_found)
           [PyStr "http://localhost:8000"] [("verify", PyBool false)]
           (PyStr "http://localhost:8000") PyNone PyNone (PyBool false)
           (setup_class not_found tt)).
  reflexivity.
Defined.

Lemma default_configuration_forwarded_witness :
  let st := RESTClient.after_calls [(GET, [PyStr "/a"], [])]
              (exec (RESTClient.new [PyStr "http://localhost:8000"] [])
                 (start not_found tt)) in
  ∃ req,
    issued (exec (RESTClient.call PUT [PyStr "/posts/1"] []) st)
      = (issued st ++ [req])%list ∧
    assoc "auth" (keywords req) = Some PyNone ∧
    assoc "timeout" (keywords req) = Some PyNone ∧
    assoc "verify" (keywords req) = Some (PyBool true).
Proof.
  apply (default_configuration_forwarded (H := not_found)
           "http://localhost:8000" [(GET, [PyStr "/a"], [])]
           (start not_found tt) PUT [PyStr "/posts/1"] []
           [PyStr "/posts/1"; PyNone] "/posts/1");
    reflexivity.
Defined.

Lemma mocked_call_returns_mock_response_witness :
  result (RESTClient.call POST [PyStr "/posts"] [("json", test_title)])
    (setup_class (mocked (PyDict [("id", PyInt 101)])) tt)
  = Ret (PyDict [("id", PyInt 101)]).
Proof.
  apply (mocked_call_returns_mock_response (PyDict [("id", PyInt 101)])
           POST [PyStr "/posts"] [("json", test_title)]
           [PyStr "/posts"; PyNone; test_title] "/posts");
    reflexivity.
Defined.

Lemma keywords_or_positions_witness :
  RESTClient.call (H := not_found) POST []
    [("json", test_title); ("endpoint", PyStr "/posts");
     ("data", PyDict [("k", PyStr "v")])]
  = RESTClient.call POST
      [PyStr "/posts"; PyDict [("k", PyStr "v")]; test_title] [].
Proof.
  apply (keywords_or_positions (H := not_found) POST
           [PyStr "/posts"; PyDict [("k", PyStr "v")]; test_title] 0
           [("json", test_title); ("endpoint", PyStr "/posts");
            ("data", PyDict [("k", PyStr "v")])]).
  - cbn. lia.
  - cbn. exact (Permutation_cons_append _ _).
Defined.
